(** * OsuPyParser: the replay decoder of [osupyparser/osr/osr_parser.py]

    A shallow embedding of the [BinaryRotator] byte cursor and of the
    [ReplayFile] decoder, followed by the properties the specification
    states about them.  Python objects are mutable, so every method is a
    computation over the object's attributes; an exception leaves the
    mutations made before it in place. *)

From Stdlib Require Import ZArith List Bool Lia.
From Stdlib Require Import Strings.String Strings.Ascii Strings.Byte.
From Stdlib Require Import Floats Uint63.
Import ListNotations.
Open Scope Z_scope.

(** ** Exceptions and the state-and-exception monad *)

(** The Python exceptions the decoder can end with.  [StructError] is
    [struct.error], [LZMAError] is [lzma.LZMAError]. *)
Inductive exn : Type :=
| TypeError
| ValueError
| IndexError
| AttributeError
| UnboundLocalError
| UnicodeDecodeError
| OverflowError
| StructError
| LZMAError.

(** The result of running a method: a value, an exception, or [OutOfFuel]
    when a [while True] loop was cut by the iteration bound of this
    development (shown unreachable below for a cursor that has not been
    moved in front of the buffer). *)
Inductive outcome (A : Type) : Type :=
| Return (a : A)
| Raise (e : exn)
| OutOfFuel.
Arguments Return {A} a.
Arguments Raise {A} e.
Arguments OutOfFuel {A}.

Definition M (S A : Type) : Type := S -> outcome A * S.

Definition ret {S A} (a : A) : M S A := fun s => (Return a, s).

Definition raise {S A} (e : exn) : M S A := fun s => (Raise e, s).

Definition bind {S A B} (m : M S A) (k : A -> M S B) : M S B :=
  fun s =>
    match m s with
    | (Return a, s') => k a s'
    | (Raise e, s') => (Raise e, s')
    | (OutOfFuel, s') => (OutOfFuel, s')
    end.

Definition get {S} : M S S := fun s => (Return s, s).

Definition gets {S A} (f : S -> A) : M S A := fun s => (Return (f s), s).

Definition modify {S} (f : S -> S) : M S unit := fun s => (Return tt, f s).

(** A pure, fallible step ([int(...)], [bytes.decode], ...). *)
Definition lift {S A} (o : outcome A) : M S A := fun s => (o, s).

Declare Scope py_scope.
Delimit Scope py_scope with py.
Notation "x <- c1 ;; c2" := (bind c1 (fun x => c2))
  (at level 61, c1 at next level, right associativity) : py_scope.
Notation "c1 ;;; c2" := (bind c1 (fun _ => c2))
  (at level 61, right associativity) : py_scope.
Open Scope py_scope.

(** ** Python values that are not typed by the source *)

(** Where the source returns values of several Python types from one
    function ([read_uleb128] returns an [int] or the [str] [""],
    [read_f64] a tuple), the value is a [pyval]. *)
#[warnings="-register-all"]
Inductive pyval : Type :=
| PyNone
| PyInt (z : Z)
| PyFloat (f : float)
| PyStr (s : string)
| PyList (l : list pyval)
| PyTuple (l : list pyval).

(** ** Built-ins: slices and integers from bytes *)

Definition bytes : Type := list byte.

(** [PySlice_AdjustIndices] for a step of 1: a negative index counts from
    the end, and both ends are clamped to [0, len]. *)
Definition clamp_index (len i : Z) : Z :=
  if i <? 0 then Z.max 0 (i + len) else Z.min i len.

(** [l[lo:hi]] *)
Definition py_slice {A} (l : list A) (lo hi : Z) : list A :=
  let len := Z.of_nat (List.length l) in
  let lo' := clamp_index len lo in
  let hi' := clamp_index len hi in
  firstn (Z.to_nat (hi' - lo')) (skipn (Z.to_nat lo') l).

Fixpoint le_unsigned (bs : bytes) : Z :=
  match bs with
  | [] => 0
  | b :: rest => Z.of_N (Byte.to_N b) + 256 * le_unsigned rest
  end.

(** [int.from_bytes(bs, "little", signed=signed)]: the width is the length
    of [bs] as given, so a short read yields a narrower integer and the
    empty byte string yields 0. *)
Definition int_from_bytes (bs : bytes) (signed : bool) : Z :=
  let u := le_unsigned bs in
  let w := 8 * Z.of_nat (List.length bs) in
  if signed && (0 <? w) && (2 ^ (w - 1) <=? u) then u - 2 ^ w else u.

(** ** Built-ins: text *)

Definition byte_val (b : byte) : Z := Z.of_N (Byte.to_N b).

Definition in_range (lo hi : Z) (b : byte) : bool :=
  (lo <=? byte_val b) && (byte_val b <=? hi).

Definition is_cont : byte -> bool := in_range 128 191.

(** Well-formed UTF-8 (what [bytes.decode()] accepts in strict mode): no
    overlong forms, no surrogates, nothing above U+10FFFF.  [fuel] bounds
    the number of code points by the number of bytes. *)
Fixpoint utf8_valid (fuel : nat) (bs : bytes) : bool :=
  match fuel with
  | O => match bs with [] => true | _ => false end
  | S fuel' =>
    match bs with
    | [] => true
    | b0 :: r0 =>
      if in_range 0 127 b0 then utf8_valid fuel' r0
      else match r0 with
      | [] => false
      | b1 :: r1 =>
        if in_range 194 223 b0 then is_cont b1 && utf8_valid fuel' r1
        else match r1 with
        | [] => false
        | b2 :: r2 =>
          if in_range 224 239 b0 then
            (if byte_val b0 =? 224 then in_range 160 191 b1
             else if byte_val b0 =? 237 then in_range 128 159 b1
             else is_cont b1)
            && is_cont b2 && utf8_valid fuel' r2
          else match r2 with
          | [] => false
          | b3 :: r3 =>
            in_range 240 244 b0
            && (if byte_val b0 =? 240 then in_range 144 191 b1
                else if byte_val b0 =? 244 then in_range 128 143 b1
                else is_cont b1)
            && is_cont b2 && is_cont b3 && utf8_valid fuel' r3
          end
        end
      end
    end
  end.

(** A Python [str] is kept as its UTF-8 encoding; [bs.decode()] therefore
    checks the bytes and keeps them. *)
Definition decode_utf8 (bs : bytes) : outcome string :=
  if utf8_valid (List.length bs) bs then Return (string_of_list_byte bs)
  else Raise UnicodeDecodeError.

(** [bs.decode("ascii")] *)
Definition decode_ascii (bs : bytes) : outcome string :=
  if forallb (in_range 0 127) bs then Return (string_of_list_byte bs)
  else Raise UnicodeDecodeError.

(** [s.split(sep)] for a one-character separator: never the empty list. *)
Fixpoint py_split (sep : ascii) (s : string) : list string :=
  match s with
  | EmptyString => [EmptyString]
  | String c rest =>
    if Ascii.eqb c sep then EmptyString :: py_split sep rest
    else match py_split sep rest with
         | t :: ts => String c t :: ts
         | [] => [String c EmptyString]
         end
  end.

(** [l[:-1]] *)
Definition drop_last {A} (l : list A) : list A := removelast l.

(** [l[i]] for a non-negative literal index. *)
Definition index {A} (l : list A) (i : nat) : outcome A :=
  match nth_error l i with
  | Some a => Return a
  | None => Raise IndexError
  end.

(** *** [int(s)] and [float(s)] on ASCII text

    The frame text has been decoded as ASCII, for which CPython strips
    the C-locale white space (tab, LF, VT, FF, CR, space) only. *)
Definition code (c : ascii) : Z := Z.of_N (N_of_ascii c).

Definition is_space (c : ascii) : bool :=
  ((9 <=? code c) && (code c <=? 13)) || (code c =? 32).

Definition is_digit (c : ascii) : bool :=
  (48 <=? code c) && (code c <=? 57).

Fixpoint lstrip (s : string) : string :=
  match s with
  | String c rest => if is_space c then lstrip rest else s
  | EmptyString => EmptyString
  end.

Fixpoint all_space (s : string) : bool :=
  match s with
  | String c rest => is_space c && all_space rest
  | EmptyString => true
  end.

(** A run of decimal digits in which single underscores may separate
    digits.  [Digits v n rest]: the run has value [v] and [n] digits and is
    followed by [rest]; [NoDigits]: the text does not start with a digit or
    an underscore; [BadUnderscore]: an underscore is not between digits. *)
Inductive digit_run : Type :=
| Digits (v : Z) (n : Z) (rest : string)
| NoDigits
| BadUnderscore.

Inductive run_prev : Type := AtStart | AfterDigit | AfterUnderscore.

Definition run_stop (prev : run_prev) (v n : Z) (rest : string) : digit_run :=
  match prev with
  | AtStart => NoDigits
  | AfterDigit => Digits v n rest
  | AfterUnderscore => BadUnderscore
  end.

Fixpoint scan_run (s : string) (prev : run_prev) (v n : Z) : digit_run :=
  match s with
  | EmptyString => run_stop prev v n s
  | String c rest =>
    if is_digit c then scan_run rest AfterDigit (10 * v + (code c - 48)) (n + 1)
    else if Ascii.eqb c "_" then
      match prev with
      | AfterDigit => scan_run rest AfterUnderscore v n
      | _ => BadUnderscore
      end
    else run_stop prev v n s
  end.

Definition digit_part (s : string) : digit_run := scan_run s AtStart 0 0.

(** An optional sign: [(negative, rest)]. *)
Definition take_sign (s : string) : bool * string :=
  match s with
  | String "-" rest => (true, rest)
  | String "+" rest => (false, rest)
  | _ => (false, s)
  end.

(** [int(s)], base 10.  The interpreter's optional limit on the number of
    digits ([sys.set_int_max_str_digits]) is a setting of the host and is
    not part of the conversion modelled here. *)
Definition py_int (s : string) : outcome Z :=
  let (neg, body) := take_sign (lstrip s) in
  match digit_part body with
  | Digits v _ rest =>
    if all_space rest then Return (if neg then - v else v)
    else Raise ValueError
  | _ => Raise ValueError
  end.

(** *** Floating point

    Python's [float] is IEEE-754 binary64, Rocq's primitive [float]. *)

(** The binary64 nearest (ties to even) to [num / den], with the given
    sign; infinite when the quotient is beyond the finite range. *)
Definition round_quotient (neg : bool) (num den : positive) : float :=
  SF2Prim (SFdiv prec emax (S754_finite neg num 0) (S754_finite false den 0)).

(** The binary64 nearest to [m * 10 ^ e] for [0 <= m]. *)
Definition round_decimal (neg : bool) (m e : Z) : float :=
  match m with
  | Zpos p =>
    if 0 <=? e then round_quotient neg (p * Z.to_pos (10 ^ e)) 1
    else round_quotient neg p (Z.to_pos (10 ^ (- e)))
  | _ => if neg then neg_zero else zero
  end.

Definition lower (c : ascii) : ascii :=
  if (65 <=? code c) && (code c <=? 90)
  then ascii_of_N (N_of_ascii c + 32) else c.

(** [rest] when [s] starts with [p] up to the case of letters. *)
Fixpoint strip_prefix_ci (p s : string) : option string :=
  match p, s with
  | EmptyString, _ => Some s
  | String a p', String b s' =>
    if Ascii.eqb a (lower b) then strip_prefix_ci p' s' else None
  | String _ _, EmptyString => None
  end.

(** [inf], [infinity] and [nan] in any case, after the sign. *)
Definition parse_inf_or_nan (neg : bool) (s : string) : option (float * string) :=
  match strip_prefix_ci "inf" s with
  | Some r =>
    let r' := match strip_prefix_ci "inity" r with Some r2 => r2 | None => r end in
    Some (if neg then neg_infinity else infinity, r')
  | None =>
    match strip_prefix_ci "nan" s with
    | Some r => Some (nan, r)
    | None => None
    end
  end.

(** The exponent of a decimal literal: [(e, rest)]; an [e] that is not
    followed by digits is left unread. *)
Definition parse_exponent (s : string) : option (Z * string) :=
  match s with
  | String c rest =>
    if Ascii.eqb (lower c) "e" then
      let (eneg, digits) := take_sign rest in
      match digit_part digits with
      | Digits v _ rest' => Some (if eneg then - v else v, rest')
      | _ => None
      end
    else Some (0, s)
  | EmptyString => Some (0, s)
  end.

(** A decimal literal after the sign: digits, optional point and digits
    (one of the two runs may be missing), optional exponent. *)
Definition parse_decimal (neg : bool) (s : string) : option (float * string) :=
  let finish (m scale : Z) (rest : string) :=
    match parse_exponent rest with
    | Some (e, rest') => Some (round_decimal neg m (e - scale), rest')
    | None => None
    end in
  match digit_part s with
  | BadUnderscore => None
  | Digits vi _ (String "." after) =>
    match digit_part after with
    | Digits vf nf rest => finish (vi * 10 ^ nf + vf) nf rest
    | NoDigits => finish vi 0 after
    | BadUnderscore => None
    end
  | Digits vi _ rest => finish vi 0 rest
  | NoDigits =>
    match s with
    | String "." after =>
      match digit_part after with
      | Digits vf nf rest => finish vf nf rest
      | _ => None
      end
    | _ => None
    end
  end.

(** [float(s)]: white space around the literal is dropped, the literal is
    read whole, and the value is rounded to nearest. *)
Definition py_float (s : string) : outcome float :=
  let (neg, body) := take_sign (lstrip s) in
  let parsed :=
    match parse_decimal neg body with
    | Some r => Some r
    | None => parse_inf_or_nan neg body
    end in
  match parsed with
  | Some (f, rest) => if all_space rest then Return f else Raise ValueError
  | None => Raise ValueError
  end.

(** The conversion of an [int] operand of a float operation:
    correctly rounded, [OverflowError] beyond the finite range. *)
Definition float_of_int (z : Z) : outcome float :=
  let f := SF2Prim (binary_normalize prec emax z 0 false) in
  if is_infinity f then Raise OverflowError else Return f.

(** [a / b] on two [int]s whose divisor is a positive literal: the
    correctly rounded quotient. *)
Definition int_true_divide (a : Z) (b : positive) : outcome float :=
  match a with
  | Z0 => Return zero
  | Zpos p =>
    let f := round_quotient false p b in
    if is_infinity f then Raise OverflowError else Return f
  | Zneg p =>
    let f := round_quotient true p b in
    if is_infinity f then Raise OverflowError else Return f
  end.

(** A binary32 bit pattern as the [float] of the same value. *)
Definition float_of_bits32 (bits : Z) : float :=
  let neg := Z.testbit bits 31 in
  let e := Z.land (Z.shiftr bits 23) 255 in
  let m := Z.land bits (2 ^ 23 - 1) in
  if e =? 255 then
    (if m =? 0 then (if neg then neg_infinity else infinity) else nan)
  else if e =? 0 then
    SF2Prim (binary_normalize prec emax (if neg then - m else m) (-149) neg)
  else
    SF2Prim (binary_normalize prec emax
               (if neg then - (m + 2 ^ 23) else m + 2 ^ 23) (e - 150) neg).

(** [struct.unpack("<f", bs)]: exactly four bytes, else [struct.error];
    the result is a 1-tuple. *)
Definition struct_unpack_f (bs : bytes) : outcome pyval :=
  if Z.of_nat (List.length bs) =? 4
  then Return (PyTuple [PyFloat (float_of_bits32 (le_unsigned bs))])
  else Raise StructError.

(** ** [class BinaryRotator] *)

Record BinaryRotator : Type := { buffer : bytes; offset : Z }.

(** [BinaryRotator.read]: the slice may be shorter than asked for, and
    the offset advances by what was asked for. *)
Definition read (n : Z) : M BinaryRotator bytes :=
  self <- get ;;
  let data := py_slice (buffer self) (offset self) (offset self + n) in
  modify (fun r => {| buffer := buffer r; offset := offset r + n |}) ;;;
  ret data.

Definition read_int (size : Z) (signed : bool) : M BinaryRotator Z :=
  data <- read size ;;
  ret (int_from_bytes data signed).

Definition read_u8 : M BinaryRotator Z := read_int 1 false.
Definition read_u16 : M BinaryRotator Z := read_int 2 false.
Definition read_i16 : M BinaryRotator Z := read_int 2 true.
Definition read_u32 : M BinaryRotator Z := read_int 4 false.
Definition read_i32 : M BinaryRotator Z := read_int 4 true.
Definition read_u64 : M BinaryRotator Z := read_int 8 false.
Definition read_i64 : M BinaryRotator Z := read_int 8 true.

(** Both float readers unpack with the format ["<f"]. *)
Definition read_f32 : M BinaryRotator pyval :=
  data <- read 4 ;;
  lift (struct_unpack_f data).

Definition read_f64 : M BinaryRotator pyval :=
  data <- read 8 ;;
  lift (struct_unpack_f data).

(** The [while True] loop of [read_uleb128]. *)
Fixpoint read_uleb128_loop (fuel : nat) (val shift : Z) : M BinaryRotator Z :=
  match fuel with
  | O => lift OutOfFuel
  | S fuel' =>
    b <- read_u8 ;;
    let val := Z.lor val (Z.shiftl (Z.land b 127) shift) in
    if Z.land b 128 =? 0 then ret val
    else read_uleb128_loop fuel' val (shift + 7)
  end.

(** [BinaryRotator.read_uleb128].  A read at or past the end of the
    buffer yields 0, which ends the loop, so one iteration more than the
    buffer has bytes is enough. *)
Definition read_uleb128 : M BinaryRotator pyval :=
  marker <- read_u8 ;;
  if negb (marker =? 11) then ret (PyStr "")
  else
    self <- get ;;
    val <- read_uleb128_loop (S (List.length (buffer self))) 0 0 ;;
    ret (PyInt val).

(** [BinaryRotator.read_string]: [self.read("")] fails on
    [self.offset + ""] before the offset is touched. *)
Definition read_string : M BinaryRotator string :=
  s_len <- read_uleb128 ;;
  match s_len with
  | PyInt n => data <- read n ;; lift (decode_utf8 data)
  | _ => raise TypeError
  end.

(** ** The frame dataclasses *)

Inductive ReplayFrame : Type :=
| OsuReplayFrame (delta : Z) (x y : float) (keys : Z)
| TaikoReplayFrame (delta : Z) (x : float) (keys : Z)
| CatchReplayFrame (delta : Z) (x : float) (dashing : bool)
| ManiaReplayFrame (delta : Z) (keys : Z).

(** ** [class ReplayFile] *)

(** [datetime.datetime(1, 1, 1) + datetime.timedelta(microseconds=us)],
    kept as the number of microseconds since that epoch. *)
Inductive datetime : Type := Datetime (us : Z).

(** The last representable instant, 9999-12-31T23:59:59.999999. *)
Definition datetime_max_us : Z := 3652059 * 86400000000 - 1.

(** What [timestamp] holds: the [int] 0 of [__init__], or a [datetime]. *)
Inductive timestamp_value : Type :=
| TsInt (z : Z)
| TsDatetime (d : datetime).

(** The attributes [__init__] assigns.  [None] is Python's [None]. *)
Record ReplayFile : Type := {
  __reader : option BinaryRotator;
  mode : Z;
  osu_version : Z;
  map_md5 : string;
  player_name : string;
  replay_md5 : string;
  n300 : Z;
  n100 : Z;
  n50 : Z;
  ngeki : Z;
  nkatu : Z;
  nmiss : Z;
  score : Z;
  max_combo : Z;
  perfect : bool;
  mods : Z;
  life_graph : string;
  timestamp : timestamp_value;
  _frames : option (list ReplayFrame);
  _score_id : option Z;
  _seed : option Z;
  _accuracy : option float;
  _target_practice_hits : option pyval
}.

(** [self.<attribute> = v] *)
Definition set___reader (v : option BinaryRotator) (r : ReplayFile) : ReplayFile :=
  {| __reader := v; mode := mode r; osu_version := osu_version r; map_md5 :=
     map_md5 r; player_name := player_name r; replay_md5 := replay_md5 r;
     n300 := n300 r; n100 := n100 r; n50 := n50 r; ngeki := ngeki r; nkatu
     := nkatu r; nmiss := nmiss r; score := score r; max_combo := max_combo
     r; perfect := perfect r; mods := mods r; life_graph := life_graph r;
     timestamp := timestamp r; _frames := _frames r; _score_id := _score_id
     r; _seed := _seed r; _accuracy := _accuracy r; _target_practice_hits :=
     _target_practice_hits r |}.

Definition set_mode (v : Z) (r : ReplayFile) : ReplayFile :=
  {| __reader := __reader r; mode := v; osu_version := osu_version r;
     map_md5 := map_md5 r; player_name := player_name r; replay_md5 :=
     replay_md5 r; n300 := n300 r; n100 := n100 r; n50 := n50 r; ngeki :=
     ngeki r; nkatu := nkatu r; nmiss := nmiss r; score := score r;
     max_combo := max_combo r; perfect := perfect r; mods := mods r;
     life_graph := life_graph r; timestamp := timestamp r; _frames :=
     _frames r; _score_id := _score_id r; _seed := _seed r; _accuracy :=
     _accuracy r; _target_practice_hits := _target_practice_hits r |}.

Definition set_osu_version (v : Z) (r : ReplayFile) : ReplayFile :=
  {| __reader := __reader r; mode := mode r; osu_version := v; map_md5 :=
     map_md5 r; player_name := player_name r; replay_md5 := replay_md5 r;
     n300 := n300 r; n100 := n100 r; n50 := n50 r; ngeki := ngeki r; nkatu
     := nkatu r; nmiss := nmiss r; score := score r; max_combo := max_combo
     r; perfect := perfect r; mods := mods r; life_graph := life_graph r;
     timestamp := timestamp r; _frames := _frames r; _score_id := _score_id
     r; _seed := _seed r; _accuracy := _accuracy r; _target_practice_hits :=
     _target_practice_hits r |}.

Definition set_map_md5 (v : string) (r : ReplayFile) : ReplayFile :=
  {| __reader := __reader r; mode := mode r; osu_version := osu_version r;
     map_md5 := v; player_name := player_name r; replay_md5 := replay_md5 r;
     n300 := n300 r; n100 := n100 r; n50 := n50 r; ngeki := ngeki r; nkatu
     := nkatu r; nmiss := nmiss r; score := score r; max_combo := max_combo
     r; perfect := perfect r; mods := mods r; life_graph := life_graph r;
     timestamp := timestamp r; _frames := _frames r; _score_id := _score_id
     r; _seed := _seed r; _accuracy := _accuracy r; _target_practice_hits :=
     _target_practice_hits r |}.

Definition set_player_name (v : string) (r : ReplayFile) : ReplayFile :=
  {| __reader := __reader r; mode := mode r; osu_version := osu_version r;
     map_md5 := map_md5 r; player_name := v; replay_md5 := replay_md5 r;
     n300 := n300 r; n100 := n100 r; n50 := n50 r; ngeki := ngeki r; nkatu
     := nkatu r; nmiss := nmiss r; score := score r; max_combo := max_combo
     r; perfect := perfect r; mods := mods r; life_graph := life_graph r;
     timestamp := timestamp r; _frames := _frames r; _score_id := _score_id
     r; _seed := _seed r; _accuracy := _accuracy r; _target_practice_hits :=
     _target_practice_hits r |}.

Definition set_replay_md5 (v : string) (r : ReplayFile) : ReplayFile :=
  {| __reader := __reader r; mode := mode r; osu_version := osu_version r;
     map_md5 := map_md5 r; player_name := player_name r; replay_md5 := v;
     n300 := n300 r; n100 := n100 r; n50 := n50 r; ngeki := ngeki r; nkatu
     := nkatu r; nmiss := nmiss r; score := score r; max_combo := max_combo
     r; perfect := perfect r; mods := mods r; life_graph := life_graph r;
     timestamp := timestamp r; _frames := _frames r; _score_id := _score_id
     r; _seed := _seed r; _accuracy := _accuracy r; _target_practice_hits :=
     _target_practice_hits r |}.

Definition set_n300 (v : Z) (r : ReplayFile) : ReplayFile :=
  {| __reader := __reader r; mode := mode r; osu_version := osu_version r;
     map_md5 := map_md5 r; player_name := player_name r; replay_md5 :=
     replay_md5 r; n300 := v; n100 := n100 r; n50 := n50 r; ngeki := ngeki
     r; nkatu := nkatu r; nmiss := nmiss r; score := score r; max_combo :=
     max_combo r; perfect := perfect r; mods := mods r; life_graph :=
     life_graph r; timestamp := timestamp r; _frames := _frames r; _score_id
     := _score_id r; _seed := _seed r; _accuracy := _accuracy r;
     _target_practice_hits := _target_practice_hits r |}.

Definition set_n100 (v : Z) (r : ReplayFile) : ReplayFile :=
  {| __reader := __reader r; mode := mode r; osu_version := osu_version r;
     map_md5 := map_md5 r; player_name := player_name r; replay_md5 :=
     replay_md5 r; n300 := n300 r; n100 := v; n50 := n50 r; ngeki := ngeki
     r; nkatu := nkatu r; nmiss := nmiss r; score := score r; max_combo :=
     max_combo r; perfect := perfect r; mods := mods r; life_graph :=
     life_graph r; timestamp := timestamp r; _frames := _frames r; _score_id
     := _score_id r; _seed := _seed r; _accuracy := _accuracy r;
     _target_practice_hits := _target_practice_hits r |}.

Definition set_n50 (v : Z) (r : ReplayFile) : ReplayFile :=
  {| __reader := __reader r; mode := mode r; osu_version := osu_version r;
     map_md5 := map_md5 r; player_name := player_name r; replay_md5 :=
     replay_md5 r; n300 := n300 r; n100 := n100 r; n50 := v; ngeki := ngeki
     r; nkatu := nkatu r; nmiss := nmiss r; score := score r; max_combo :=
     max_combo r; perfect := perfect r; mods := mods r; life_graph :=
     life_graph r; timestamp := timestamp r; _frames := _frames r; _score_id
     := _score_id r; _seed := _seed r; _accuracy := _accuracy r;
     _target_practice_hits := _target_practice_hits r |}.

Definition set_ngeki (v : Z) (r : ReplayFile) : ReplayFile :=
  {| __reader := __reader r; mode := mode r; osu_version := osu_version r;
     map_md5 := map_md5 r; player_name := player_name r; replay_md5 :=
     replay_md5 r; n300 := n300 r; n100 := n100 r; n50 := n50 r; ngeki := v;
     nkatu := nkatu r; nmiss := nmiss r; score := score r; max_combo :=
     max_combo r; perfect := perfect r; mods := mods r; life_graph :=
     life_graph r; timestamp := timestamp r; _frames := _frames r; _score_id
     := _score_id r; _seed := _seed r; _accuracy := _accuracy r;
     _target_practice_hits := _target_practice_hits r |}.

Definition set_nkatu (v : Z) (r : ReplayFile) : ReplayFile :=
  {| __reader := __reader r; mode := mode r; osu_version := osu_version r;
     map_md5 := map_md5 r; player_name := player_name r; replay_md5 :=
     replay_md5 r; n300 := n300 r; n100 := n100 r; n50 := n50 r; ngeki :=
     ngeki r; nkatu := v; nmiss := nmiss r; score := score r; max_combo :=
     max_combo r; perfect := perfect r; mods := mods r; life_graph :=
     life_graph r; timestamp := timestamp r; _frames := _frames r; _score_id
     := _score_id r; _seed := _seed r; _accuracy := _accuracy r;
     _target_practice_hits := _target_practice_hits r |}.

Definition set_nmiss (v : Z) (r : ReplayFile) : ReplayFile :=
  {| __reader := __reader r; mode := mode r; osu_version := osu_version r;
     map_md5 := map_md5 r; player_name := player_name r; replay_md5 :=
     replay_md5 r; n300 := n300 r; n100 := n100 r; n50 := n50 r; ngeki :=
     ngeki r; nkatu := nkatu r; nmiss := v; score := score r; max_combo :=
     max_combo r; perfect := perfect r; mods := mods r; life_graph :=
     life_graph r; timestamp := timestamp r; _frames := _frames r; _score_id
     := _score_id r; _seed := _seed r; _accuracy := _accuracy r;
     _target_practice_hits := _target_practice_hits r |}.

Definition set_score (v : Z) (r : ReplayFile) : ReplayFile :=
  {| __reader := __reader r; mode := mode r; osu_version := osu_version r;
     map_md5 := map_md5 r; player_name := player_name r; replay_md5 :=
     replay_md5 r; n300 := n300 r; n100 := n100 r; n50 := n50 r; ngeki :=
     ngeki r; nkatu := nkatu r; nmiss := nmiss r; score := v; max_combo :=
     max_combo r; perfect := perfect r; mods := mods r; life_graph :=
     life_graph r; timestamp := timestamp r; _frames := _frames r; _score_id
     := _score_id r; _seed := _seed r; _accuracy := _accuracy r;
     _target_practice_hits := _target_practice_hits r |}.

Definition set_max_combo (v : Z) (r : ReplayFile) : ReplayFile :=
  {| __reader := __reader r; mode := mode r; osu_version := osu_version r;
     map_md5 := map_md5 r; player_name := player_name r; replay_md5 :=
     replay_md5 r; n300 := n300 r; n100 := n100 r; n50 := n50 r; ngeki :=
     ngeki r; nkatu := nkatu r; nmiss := nmiss r; score := score r;
     max_combo := v; perfect := perfect r; mods := mods r; life_graph :=
     life_graph r; timestamp := timestamp r; _frames := _frames r; _score_id
     := _score_id r; _seed := _seed r; _accuracy := _accuracy r;
     _target_practice_hits := _target_practice_hits r |}.

Definition set_perfect (v : bool) (r : ReplayFile) : ReplayFile :=
  {| __reader := __reader r; mode := mode r; osu_version := osu_version r;
     map_md5 := map_md5 r; player_name := player_name r; replay_md5 :=
     replay_md5 r; n300 := n300 r; n100 := n100 r; n50 := n50 r; ngeki :=
     ngeki r; nkatu := nkatu r; nmiss := nmiss r; score := score r;
     max_combo := max_combo r; perfect := v; mods := mods r; life_graph :=
     life_graph r; timestamp := timestamp r; _frames := _frames r; _score_id
     := _score_id r; _seed := _seed r; _accuracy := _accuracy r;
     _target_practice_hits := _target_practice_hits r |}.

Definition set_mods (v : Z) (r : ReplayFile) : ReplayFile :=
  {| __reader := __reader r; mode := mode r; osu_version := osu_version r;
     map_md5 := map_md5 r; player_name := player_name r; replay_md5 :=
     replay_md5 r; n300 := n300 r; n100 := n100 r; n50 := n50 r; ngeki :=
     ngeki r; nkatu := nkatu r; nmiss := nmiss r; score := score r;
     max_combo := max_combo r; perfect := perfect r; mods := v; life_graph
     := life_graph r; timestamp := timestamp r; _frames := _frames r;
     _score_id := _score_id r; _seed := _seed r; _accuracy := _accuracy r;
     _target_practice_hits := _target_practice_hits r |}.

Definition set_life_graph (v : string) (r : ReplayFile) : ReplayFile :=
  {| __reader := __reader r; mode := mode r; osu_version := osu_version r;
     map_md5 := map_md5 r; player_name := player_name r; replay_md5 :=
     replay_md5 r; n300 := n300 r; n100 := n100 r; n50 := n50 r; ngeki :=
     ngeki r; nkatu := nkatu r; nmiss := nmiss r; score := score r;
     max_combo := max_combo r; perfect := perfect r; mods := mods r;
     life_graph := v; timestamp := timestamp r; _frames := _frames r;
     _score_id := _score_id r; _seed := _seed r; _accuracy := _accuracy r;
     _target_practice_hits := _target_practice_hits r |}.

Definition set_timestamp (v : timestamp_value) (r : ReplayFile) : ReplayFile :=
  {| __reader := __reader r; mode := mode r; osu_version := osu_version r;
     map_md5 := map_md5 r; player_name := player_name r; replay_md5 :=
     replay_md5 r; n300 := n300 r; n100 := n100 r; n50 := n50 r; ngeki :=
     ngeki r; nkatu := nkatu r; nmiss := nmiss r; score := score r;
     max_combo := max_combo r; perfect := perfect r; mods := mods r;
     life_graph := life_graph r; timestamp := v; _frames := _frames r;
     _score_id := _score_id r; _seed := _seed r; _accuracy := _accuracy r;
     _target_practice_hits := _target_practice_hits r |}.

Definition set__frames (v : option (list ReplayFrame)) (r : ReplayFile) : ReplayFile :=
  {| __reader := __reader r; mode := mode r; osu_version := osu_version r;
     map_md5 := map_md5 r; player_name := player_name r; replay_md5 :=
     replay_md5 r; n300 := n300 r; n100 := n100 r; n50 := n50 r; ngeki :=
     ngeki r; nkatu := nkatu r; nmiss := nmiss r; score := score r;
     max_combo := max_combo r; perfect := perfect r; mods := mods r;
     life_graph := life_graph r; timestamp := timestamp r; _frames := v;
     _score_id := _score_id r; _seed := _seed r; _accuracy := _accuracy r;
     _target_practice_hits := _target_practice_hits r |}.

Definition set__score_id (v : option Z) (r : ReplayFile) : ReplayFile :=
  {| __reader := __reader r; mode := mode r; osu_version := osu_version r;
     map_md5 := map_md5 r; player_name := player_name r; replay_md5 :=
     replay_md5 r; n300 := n300 r; n100 := n100 r; n50 := n50 r; ngeki :=
     ngeki r; nkatu := nkatu r; nmiss := nmiss r; score := score r;
     max_combo := max_combo r; perfect := perfect r; mods := mods r;
     life_graph := life_graph r; timestamp := timestamp r; _frames :=
     _frames r; _score_id := v; _seed := _seed r; _accuracy := _accuracy r;
     _target_practice_hits := _target_practice_hits r |}.

Definition set__seed (v : option Z) (r : ReplayFile) : ReplayFile :=
  {| __reader := __reader r; mode := mode r; osu_version := osu_version r;
     map_md5 := map_md5 r; player_name := player_name r; replay_md5 :=
     replay_md5 r; n300 := n300 r; n100 := n100 r; n50 := n50 r; ngeki :=
     ngeki r; nkatu := nkatu r; nmiss := nmiss r; score := score r;
     max_combo := max_combo r; perfect := perfect r; mods := mods r;
     life_graph := life_graph r; timestamp := timestamp r; _frames :=
     _frames r; _score_id := _score_id r; _seed := v; _accuracy := _accuracy
     r; _target_practice_hits := _target_practice_hits r |}.

Definition set__accuracy (v : option float) (r : ReplayFile) : ReplayFile :=
  {| __reader := __reader r; mode := mode r; osu_version := osu_version r;
     map_md5 := map_md5 r; player_name := player_name r; replay_md5 :=
     replay_md5 r; n300 := n300 r; n100 := n100 r; n50 := n50 r; ngeki :=
     ngeki r; nkatu := nkatu r; nmiss := nmiss r; score := score r;
     max_combo := max_combo r; perfect := perfect r; mods := mods r;
     life_graph := life_graph r; timestamp := timestamp r; _frames :=
     _frames r; _score_id := _score_id r; _seed := _seed r; _accuracy := v;
     _target_practice_hits := _target_practice_hits r |}.

Definition set__target_practice_hits (v : option pyval) (r : ReplayFile) : ReplayFile :=
  {| __reader := __reader r; mode := mode r; osu_version := osu_version r;
     map_md5 := map_md5 r; player_name := player_name r; replay_md5 :=
     replay_md5 r; n300 := n300 r; n100 := n100 r; n50 := n50 r; ngeki :=
     ngeki r; nkatu := nkatu r; nmiss := nmiss r; score := score r;
     max_combo := max_combo r; perfect := perfect r; mods := mods r;
     life_graph := life_graph r; timestamp := timestamp r; _frames :=
     _frames r; _score_id := _score_id r; _seed := _seed r; _accuracy :=
     _accuracy r; _target_practice_hits := v |}.

(** The attribute values after [__init__]. *)
Definition fresh : ReplayFile :=
  {| __reader := None; mode := 0; osu_version := 0; map_md5 := EmptyString;
     player_name := EmptyString; replay_md5 := EmptyString; n300 := 0; n100
     := 0; n50 := 0; ngeki := 0; nkatu := 0; nmiss := 0; score := 0;
     max_combo := 0; perfect := false; mods := 0; life_graph := EmptyString;
     timestamp := TsInt 0; _frames := None; _score_id := None; _seed :=
     None; _accuracy := None; _target_practice_hits := None |}.

(** Sequencing of pure, fallible steps (argument evaluation, left to
    right). *)
Definition obind {A B} (o : outcome A) (k : A -> outcome B) : outcome B :=
  match o with
  | Return a => k a
  | Raise e => Raise e
  | OutOfFuel => OutOfFuel
  end.

Notation "x <~ o ;; k" := (obind o (fun x => k))
  (at level 61, o at next level, right associativity) : py_scope.

(** [self.__reader.<method>(...)]: the reader is [None] until one of the
    constructors assigns it. *)
Definition on_reader {A} (m : M BinaryRotator A) : M ReplayFile A :=
  fun self =>
    match __reader self with
    | None => (Raise AttributeError, self)
    | Some r => let (o, r') := m r in (o, set___reader (Some r') self)
    end.

(** What [self] is bound to: [from_bytes] passes the class object
    [ReplayFile] itself, [from_file] an instance.  On the class object the
    attributes [__init__] assigns are class attributes, the names [frames],
    [seed], ... are the [property] objects, and a method looked up through
    [self] is a plain function that receives no implicit [self]. *)
Inductive self_ref : Type := TheClass | AnInstance.

(** [ReplayFile.__init__] *)
Definition __init__ : M ReplayFile unit := modify (fun _ => fresh).

(** The table [MODS] of [parse_osu_mods], in the order of the literal
    (the order [MODS.items()] iterates in). *)
Definition MODS : list (string * Z) :=
  [("HD", 8); ("HR", 16); ("DT", 64); ("EZ", 2); ("HT", 256); ("NC", 512);
   ("NF", 1); ("SD", 32); ("PF", 16384); ("FL", 1024); ("RX", 128);
   ("AP", 2048); ("SO", 4096)]%string.

(** [ReplayFile.parse_osu_mods]: [functools.reduce] over the items,
    from [""]; the result is a [str]. *)
Definition parse_osu_mods (self : ReplayFile) : pyval :=
  PyStr (fold_left
           (fun acc val =>
              if negb (Z.land (mods self) (snd val) =? 0)
              then (acc ++ " " ++ fst val)%string else acc)
           MODS EmptyString).

(** [float + float], [float / float], [float * float] *)
Definition fadd (a b : float) : float := PrimFloat.add a b.
Definition fdiv (a b : float) : float := PrimFloat.div a b.
Definition fmul (a b : float) : float := PrimFloat.mul a b.

(** The body of the [accuracy] property under [if self._accuracy is None].
    An [int] operand of a float operation is converted first;
    [all_hit_objects] is at least 1, so the division is defined. *)
Definition compute_accuracy (self : ReplayFile) : outcome float :=
  let all_hit_objects := Z.max (n300 self + n100 self + n50 self + nmiss self) 1 in
  t100 <~ int_true_divide (n100 self * 1) 3 ;;
  f300 <~ float_of_int (n300 self) ;;
  t50 <~ int_true_divide (n50 self * 1) 6 ;;
  let weighted_value := fadd (fadd f300 t100) t50 in
  fall <~ float_of_int all_hit_objects ;;
  f100 <~ float_of_int 100 ;;
  Return (fmul (fdiv weighted_value fall) f100).

(** The [accuracy] property. *)
Definition accuracy : M ReplayFile (option float) :=
  cached <- gets _accuracy ;;
  match cached with
  | None =>
    self <- get ;;
    v <- lift (compute_accuracy self) ;;
    modify (set__accuracy (Some v))
  | Some _ => ret tt
  end ;;;
  gets _accuracy.

(** [ReplayFile.parse_timestamp] *)
Definition parse_timestamp (ticks : Z) : outcome datetime :=
  let us := ticks / 10 in
  if (0 <=? us) && (us <=? datetime_max_us) then Return (Datetime us)
  else Raise OverflowError.

(** The four constructor calls of [read_lzma]; the arguments are evaluated
    left to right.  [frame] is the local variable of the loop: when no
    branch matches the mode it keeps its value, [None] while unbound. *)
Definition build_frame (mode : Z) (action : list string)
    (frame : option ReplayFrame) : outcome (option ReplayFrame) :=
  if mode =? 0 then
    a0 <~ index action 0 ;; delta <~ py_int a0 ;;
    a1 <~ index action 1 ;; x <~ py_float a1 ;;
    a2 <~ index action 2 ;; y <~ py_float a2 ;;
    a3 <~ index action 3 ;; keys <~ py_int a3 ;;
    Return (Some (OsuReplayFrame delta x y keys))
  else if mode =? 1 then
    a0 <~ index action 0 ;; delta <~ py_int a0 ;;
    a1 <~ index action 1 ;; x <~ py_float a1 ;;
    a3 <~ index action 3 ;; keys <~ py_int a3 ;;
    Return (Some (TaikoReplayFrame delta x keys))
  else if mode =? 2 then
    a0 <~ index action 0 ;; delta <~ py_int a0 ;;
    a1 <~ index action 1 ;; x <~ py_float a1 ;;
    a3 <~ index action 3 ;;
    Return (Some (CatchReplayFrame delta x (String.eqb a3 "1")))
  else if mode =? 3 then
    a0 <~ index action 0 ;; delta <~ py_int a0 ;;
    a1 <~ index action 1 ;; keys <~ py_int a1 ;;
    Return (Some (ManiaReplayFrame delta keys))
  else Return frame.

(** [self.osu_version >= 20130319 and action[0] == "-12345"] *)
Definition is_seed_action (version : Z) (action : list string) : outcome bool :=
  if 20130319 <=? version then
    a0 <~ index action 0 ;; Return (String.eqb a0 "-12345")
  else Return false.

(** [self._frames.append(frame)] *)
Definition append_frame (frame : ReplayFrame) : M ReplayFile unit :=
  fs <- gets _frames ;;
  match fs with
  | Some l => modify (set__frames (Some (l ++ [frame])))
  | None => raise AttributeError
  end.

(** The [for action in frames] loop of [read_lzma]. *)
Fixpoint read_lzma_loop (frames : list (list string))
    (frame : option ReplayFrame) : M ReplayFile unit :=
  match frames with
  | [] => ret tt
  | action :: rest =>
    version <- gets osu_version ;;
    is_seed <- lift (is_seed_action version action) ;;
    if is_seed : bool then
      a3 <- lift (index action 3) ;;
      v <- lift (py_int a3) ;;
      modify (set__seed (Some v)) ;;;
      read_lzma_loop rest frame
    else
      mode <- gets mode ;;
      frame' <- lift (build_frame mode action frame) ;;
      match frame' with
      | Some f => append_frame f ;;; read_lzma_loop rest frame'
      | None => raise UnboundLocalError
      end
  end.

(** [[frame.split("|") for frame in data.split(",")[:-1]]] *)
Definition split_frames (data : string) : list (list string) :=
  map (py_split "|") (drop_last (py_split "," data)).

(** The trailer of [read_lzma]: the score id and the target-practice
    hits, read from the cursor behind the compressed block. *)
Definition read_trailer : M ReplayFile unit :=
  version <- gets osu_version ;;
  (if 20140721 <=? version then
     v <- on_reader read_i64 ;; modify (set__score_id (Some v))
   else if 20121008 <=? version then
     v <- on_reader read_i32 ;; modify (set__score_id (Some v))
   else ret tt) ;;;
  m <- gets mods ;;
  if negb (Z.land m 8388608 =? 0) then
    v <- on_reader read_f64 ;; modify (set__target_practice_hits (Some v))
  else ret tt.

(** ** Vocabulary of the specification

    Definitions that follow the words of the specification; the
    properties below compare them with the code. *)

(** The abbreviations of the [table] entries whose bit is set in [m], in
    the order of the table. *)
Definition abbreviations_of (m : Z) (table : list (string * Z)) : list string :=
  map fst (filter (fun val => negb (Z.land m (snd val) =? 0)) table).

(** Each abbreviation preceded by a space, one after the other. *)
Definition spaced (names : list string) : string :=
  fold_right (fun name s => (" " ++ name ++ s)%string) EmptyString names.

(** [(n300 + n100/3 + n50/6) / max(n300+n100+n50+nMiss, 1) * 100] *)
Definition spec_computeAccuracy (n300 n100 n50 nMiss : Z) : outcome float :=
  q100 <~ int_true_divide n100 3 ;;
  f300 <~ float_of_int n300 ;;
  q50 <~ int_true_divide n50 6 ;;
  denominator <~ float_of_int (Z.max (n300 + n100 + n50 + nMiss) 1) ;;
  hundred <~ float_of_int 100 ;;
  Return (fmul (fdiv (fadd (fadd f300 q100) q50) denominator) hundred).

(** A seed token: the format version is at least 20130319 and the delta
    field is the literal [-12345]. *)
Definition is_seed_token (version : Z) (fields : list string) : bool :=
  (20130319 <=? version)
  && match fields with
     | delta :: _ => String.eqb delta "-12345"
     | [] => false
     end.

(** The frame a token stands for in a mode, from its fields delta,
    field1, field2, field3: Standard (0) is
    (int(delta), float(field1), float(field2), int(field3)), Taiko (1) is
    (int(delta), float(field1), int(field3)), Catch (2) is
    (int(delta), float(field1), field3 == "1"), Mania (3) is
    (int(delta), int(field1)). *)
Inductive spec_frame : Z -> list string -> ReplayFrame -> Prop :=
| Standard_frame d f1 f2 f3 more delta x y keys :
    py_int d = Return delta -> py_float f1 = Return x ->
    py_float f2 = Return y -> py_int f3 = Return keys ->
    spec_frame 0 (d :: f1 :: f2 :: f3 :: more) (OsuReplayFrame delta x y keys)
| Taiko_frame d f1 f2 f3 more delta x keys :
    py_int d = Return delta -> py_float f1 = Return x ->
    py_int f3 = Return keys ->
    spec_frame 1 (d :: f1 :: f2 :: f3 :: more) (TaikoReplayFrame delta x keys)
| Catch_frame d f1 f2 f3 more delta x :
    py_int d = Return delta -> py_float f1 = Return x ->
    spec_frame 2 (d :: f1 :: f2 :: f3 :: more)
               (CatchReplayFrame delta x (String.eqb f3 "1"))
| Mania_frame d f1 more delta keys :
    py_int d = Return delta -> py_int f1 = Return keys ->
    spec_frame 3 (d :: f1 :: more) (ManiaReplayFrame delta keys).

(** The seed a seed token carries: int(field3). *)
Definition spec_seed (fields : list string) (k : Z) : Prop :=
  exists f3, nth_error fields 3 = Some f3 /\ py_int f3 = Return k.

(** ** Reasoning about computations *)

(** [triple P m Q E]: started in a state that satisfies [P], the
    computation [m] returns a value and a state that satisfy [Q], or
    raises an exception in [E]; it does not run out of fuel. *)
Definition triple {S A} (P : S -> Prop) (m : M S A)
    (Q : A -> S -> Prop) (E : exn -> Prop) : Prop :=
  forall s, P s ->
    match m s with
    | (Return a, s') => Q a s'
    | (Raise e, _) => E e
    | (OutOfFuel, _) => False
    end.

(** The cursor has not been moved backwards in front of the buffer. *)
Definition forward (r : BinaryRotator) : Prop := 0 <= offset r.

(** The object has a reader, and the reader is [forward]. *)
Definition has_reader (self : ReplayFile) : Prop :=
  exists r, __reader self = Some r /\ forward r.

(** The exceptions a header can end with. *)
Definition header_error (e : exn) : Prop :=
  e = TypeError \/ e = UnicodeDecodeError \/ e = OverflowError.

(** What [read_uleb128] returns: the empty [str] or a length. *)
Definition uleb_value (v : pyval) : Prop :=
  v = PyStr "" \/ exists n, v = PyInt n /\ 0 <= n.

Section Decoder.

(** [lzma.decompress(data, format=lzma.FORMAT_AUTO)], the one operation
    of the decoder that lives in a library: [None] is [lzma.LZMAError]. *)
Variable lzma_decompress : bytes -> option bytes.

Definition decompress (data : bytes) : outcome string :=
  match lzma_decompress data with
  | Some raw => decode_ascii raw
  | None => Raise LZMAError
  end.

(** [ReplayFile.read_lzma] *)
Definition read_lzma : M ReplayFile unit :=
  lzma_len <- on_reader read_i32 ;;
  lzma_data <- on_reader (read lzma_len) ;;
  data <- lift (decompress lzma_data) ;;
  let frames := split_frames data in
  modify (set__frames (Some [])) ;;;
  read_lzma_loop frames None ;;;
  read_trailer.

(** The [frames], [score_id], [target_practice_hits] and [seed]
    properties: each looks at its own attribute only. *)
Definition frames : M ReplayFile (option (list ReplayFrame)) :=
  cached <- gets _frames ;;
  match cached with None => read_lzma | Some _ => ret tt end ;;;
  gets _frames.

Definition score_id : M ReplayFile (option Z) :=
  cached <- gets _score_id ;;
  match cached with None => read_lzma | Some _ => ret tt end ;;;
  gets _score_id.

Definition target_practice_hits : M ReplayFile (option pyval) :=
  cached <- gets _target_practice_hits ;;
  match cached with None => read_lzma | Some _ => ret tt end ;;;
  gets _target_practice_hits.

Definition seed : M ReplayFile (option Z) :=
  cached <- gets _seed ;;
  match cached with None => read_lzma | Some _ => ret tt end ;;;
  gets _seed.

(** [self.seed = v] in [parse_lzma]: on an instance the property has no
    setter; on the class object the assignment rebinds the class
    attribute [seed], which is none of the attributes of [ReplayFile]. *)
Definition assign_seed (self : self_ref) (v : Z) : M ReplayFile unit :=
  match self with
  | TheClass => ret tt
  | AnInstance => raise AttributeError
  end.

(** [self.frames.append(frame)] in [parse_lzma]: on the class object
    [self.frames] is the [property] object, which has no [append]; on an
    instance it is the getter above, and the list it returns is the one
    in [_frames]. *)
Definition frames_append (self : self_ref) (frame : ReplayFrame) : M ReplayFile unit :=
  match self with
  | TheClass => raise AttributeError
  | AnInstance => frames ;;; append_frame frame
  end.

(** The [for action in frames] loop of [parse_lzma]. *)
Fixpoint parse_lzma_loop (self : self_ref) (frames : list (list string))
    : M ReplayFile unit :=
  match frames with
  | [] => ret tt
  | action :: rest =>
    version <- gets osu_version ;;
    is_seed <- lift (is_seed_action version action) ;;
    if is_seed : bool then
      a3 <- lift (index action 3) ;;
      v <- lift (py_int a3) ;;
      assign_seed self v ;;;
      parse_lzma_loop self rest
    else
      frame <- lift (a0 <~ index action 0 ;; delta <~ py_int a0 ;;
                     a1 <~ index action 1 ;; x <~ py_float a1 ;;
                     a2 <~ index action 2 ;; y <~ py_float a2 ;;
                     a3 <~ index action 3 ;; keys <~ py_int a3 ;;
                     Return (OsuReplayFrame delta x y keys)) ;;
      frames_append self frame ;;;
      parse_lzma_loop self rest
  end.

(** [ReplayFile.parse_lzma] *)
Definition parse_lzma (self : self_ref) : M ReplayFile unit :=
  buf <- on_reader (gets buffer) ;;
  data <- lift (decompress buf) ;;
  parse_lzma_loop self (split_frames data).

(** [ReplayFile.parse_data].  The two calls through [self] pass their
    arguments differently: [self.parse_lzma(self)] fits the class object
    and gives an instance one argument too many, and
    [self.parse_timestamp(ticks)] fits an instance and leaves the class
    object's plain function without its [ticks]. *)
Definition parse_data (self : self_ref) (only_lzma : bool) : M ReplayFile self_ref :=
  if only_lzma then
    match self with
    | TheClass => parse_lzma TheClass
    | AnInstance => raise TypeError
    end ;;;
    ret self
  else
    v <- on_reader read_u8 ;; modify (set_mode v) ;;;
    v <- on_reader read_i32 ;; modify (set_osu_version v) ;;;
    v <- on_reader read_string ;; modify (set_map_md5 v) ;;;
    v <- on_reader read_string ;; modify (set_player_name v) ;;;
    v <- on_reader read_string ;; modify (set_replay_md5 v) ;;;
    v <- on_reader read_u16 ;; modify (set_n300 v) ;;;
    v <- on_reader read_u16 ;; modify (set_n100 v) ;;;
    v <- on_reader read_u16 ;; modify (set_n50 v) ;;;
    v <- on_reader read_u16 ;; modify (set_ngeki v) ;;;
    v <- on_reader read_u16 ;; modify (set_nkatu v) ;;;
    v <- on_reader read_u16 ;; modify (set_nmiss v) ;;;
    v <- on_reader read_i32 ;; modify (set_score v) ;;;
    v <- on_reader read_u16 ;; modify (set_max_combo v) ;;;
    v <- on_reader read_u8 ;; modify (set_perfect (v =? 1)) ;;;
    v <- on_reader read_i32 ;; modify (set_mods v) ;;;
    v <- on_reader read_string ;; modify (set_life_graph v) ;;;
    ticks <- on_reader read_i64 ;;
    match self with
    | TheClass => raise TypeError
    | AnInstance =>
      d <- lift (parse_timestamp ticks) ;;
      modify (set_timestamp (TsDatetime d))
    end ;;;
    ret self.

(** [ReplayFile.from_bytes]: [cls.__init__(cls)] initialises the class
    object, and [parse_data] runs with [self] bound to it.  The state is
    the class object's attributes. *)
Definition from_bytes (bytedata : bytes) (pure_lzma : bool) : M ReplayFile self_ref :=
  __init__ ;;;
  modify (set___reader (Some {| buffer := bytedata; offset := 0 |})) ;;;
  parse_data TheClass pure_lzma.

(** [ReplayFile.from_file] on a file whose content is [contents]: a new
    instance, initialised by [cls()], decoded and returned with its
    attributes. *)
Definition from_file (contents : bytes) (pure_lzma : bool)
    : outcome self_ref * ReplayFile :=
  (modify (set___reader (Some {| buffer := contents; offset := 0 |})) ;;;
   parse_data AnInstance pure_lzma) fresh.

(** * Properties *)

(** ** The byte cursor *)

Lemma py_slice_nil {A} (l : list A) (lo hi : Z) :
  Z.of_nat (List.length l) <= lo -> py_slice l lo hi = [].
Proof.
  intros Hlen. unfold py_slice, clamp_index.
  assert (Hlo : (lo <? 0) = false) by (apply Z.ltb_ge; lia).
  rewrite Hlo.
  rewrite skipn_all2 by lia.
  apply firstn_nil.
Qed.

Lemma firstn_min_length {A} (n : nat) (l : list A) :
  firstn (Nat.min n (List.length l)) l = firstn n l.
Proof.
  destruct (Nat.le_ge_cases n (List.length l)) as [H | H].
  - now rewrite Nat.min_l.
  - rewrite Nat.min_r by assumption.
    now rewrite !firstn_all2 by lia.
Qed.

(** A slice taken forward from a non-negative offset. *)
Lemma py_slice_forward {A} (l : list A) (lo n : Z) :
  0 <= lo -> 0 <= n ->
  py_slice l lo (lo + n) = firstn (Z.to_nat n) (skipn (Z.to_nat lo) l).
Proof.
  intros Hlo Hn. unfold py_slice, clamp_index.
  assert (H1 : (lo <? 0) = false) by (apply Z.ltb_ge; lia).
  assert (H2 : (lo + n <? 0) = false) by (apply Z.ltb_ge; lia).
  rewrite H1, H2.
  destruct (Z_lt_le_dec lo (Z.of_nat (List.length l))) as [Hin | Hout].
  - rewrite (Z.min_l lo) by lia.
    rewrite <- (firstn_min_length (Z.to_nat n)).
    f_equal. rewrite length_skipn. lia.
  - rewrite !skipn_all2 by lia. now rewrite !firstn_nil.
Qed.

Lemma read_u8_head (b : byte) (rest : bytes) :
  read_u8 {| buffer := b :: rest; offset := 0 |}
  = (Return (byte_val b), {| buffer := b :: rest; offset := 1 |}).
Proof.
  unfold read_u8, read_int, read, bind, get, modify, ret. cbn [buffer offset fst snd].
  rewrite (py_slice_forward (b :: rest) 0 1) by lia.
  simpl. unfold int_from_bytes, byte_val. simpl. f_equal. f_equal. lia.
Qed.

(** C1 (as amended): when the first byte of the buffer is not the marker
    0x0b, [read_uleb128] raises nothing: it returns the empty string [""]
    and leaves the cursor behind that byte. *)
Theorem read_uleb128_without_marker (b : byte) (rest : bytes) :
  byte_val b <> 11 ->
  read_uleb128 {| buffer := b :: rest; offset := 0 |}
  = (Return (PyStr ""), {| buffer := b :: rest; offset := 1 |}).
Proof.
  intros Hb. unfold read_uleb128, bind. rewrite read_u8_head.
  apply Z.eqb_neq in Hb. rewrite Hb. reflexivity.
Qed.

Lemma read_uleb128_without_marker_witness :
  byte_val x00 <> 11 /\
  read_uleb128 {| buffer := [x00; x05]; offset := 0 |}
  = (Return (PyStr ""), {| buffer := [x00; x05]; offset := 1 |}).
Proof.
  split; [ discriminate | apply (read_uleb128_without_marker x00); discriminate ].
Defined.

(** C1 (as stated) fails: on the one-byte buffer [00] the read returns the
    empty string instead of raising. *)
Lemma read_uleb128_marker_counterexample :
  fst (read_uleb128 {| buffer := [x00]; offset := 0 |}) = Return (PyStr "")
  /\ forall e, fst (read_uleb128 {| buffer := [x00]; offset := 0 |}) <> Raise e.
Proof. split; [ reflexivity | intros e; discriminate ]. Qed.

(** ** Mods *)

Lemma append_assoc (a b c : string) : ((a ++ b) ++ c = a ++ (b ++ c))%string.
Proof. induction a as [| ch a IH]; simpl; [ reflexivity | now rewrite IH ]. Qed.

Lemma append_empty_r (a : string) : (a ++ "" = a)%string.
Proof. induction a as [| ch a IH]; simpl; [ reflexivity | now rewrite IH ]. Qed.

(** The [reduce] of [parse_osu_mods] from any accumulator. *)
Lemma reduce_mods (m : Z) (table : list (string * Z)) (acc : string) :
  fold_left
    (fun acc val =>
       if negb (Z.land m (snd val) =? 0) then (acc ++ " " ++ fst val)%string else acc)
    table acc
  = (acc ++ spaced (abbreviations_of m table))%string.
Proof.
  revert acc. induction table as [| [name bit] table IH]; intros acc.
  - simpl. now rewrite append_empty_r.
  - cbn [fold_left]. rewrite IH. unfold abbreviations_of. cbn [filter snd fst].
    destruct (negb (Z.land m bit =? 0)); [ | reflexivity ].
    cbn [map fst spaced fold_right].
    now rewrite !append_assoc.
Qed.

(** C3 (as amended): [parse_osu_mods] returns a string, not a list: for
    each entry of [MODS] whose bit is set in the mask, in the order of the
    table, a space followed by the abbreviation; bits outside the table
    contribute nothing.  For the mask 0 it is [""], for 8+16 it is
    [" HD HR"]. *)
Theorem parse_osu_mods_string :
  (forall self, parse_osu_mods self = PyStr (spaced (abbreviations_of (mods self) MODS)))
  /\ parse_osu_mods (set_mods 0 fresh) = PyStr ""
  /\ parse_osu_mods (set_mods (8 + 16) fresh) = PyStr " HD HR".
Proof.
  split; [ | split; reflexivity ].
  intros self. unfold parse_osu_mods. now rewrite reduce_mods.
Qed.

(** C3 (as stated) fails: for the mask 8+16 the result is the string
    [" HD HR"], not the list [["HD", "HR"]], and for 0 it is the string
    [""], not the empty list. *)
Lemma parse_osu_mods_list_counterexample :
  parse_osu_mods (set_mods (8 + 16) fresh) <> PyList [PyStr "HD"; PyStr "HR"]
  /\ parse_osu_mods (set_mods 0 fresh) <> PyList [].
Proof. split; discriminate. Qed.

(** ** Accuracy *)

(** C4: while no accuracy is cached, the [accuracy] property computes
    [(n300 + n100/3 + n50/6) / max(n300+n100+n50+nMiss, 1) * 100] in
    Python's arithmetic, stores it and returns it; the denominator is at
    least 1; the counts (300,0,0,0) give 100.0 and (0,0,0,0) give 0.0. *)
Theorem accuracy_formula :
  (forall self,
      _accuracy self = None ->
      1 <= Z.max (n300 self + n100 self + n50 self + nmiss self) 1
      /\ accuracy self
         = match spec_computeAccuracy (n300 self) (n100 self) (n50 self) (nmiss self) with
           | Return v => (Return (Some v), set__accuracy (Some v) self)
           | Raise e => (Raise e, self)
           | OutOfFuel => (OutOfFuel, self)
           end)
  /\ fst (accuracy (set_n300 300 fresh)) = Return (Some 100%float)
  /\ fst (accuracy fresh) = Return (Some 0%float).
Proof.
  split; [ | split; vm_compute; reflexivity ].
  intros self Hnone. split; [ lia | ].
  assert (Heq : compute_accuracy self
                = spec_computeAccuracy (n300 self) (n100 self) (n50 self) (nmiss self)).
  { unfold compute_accuracy, spec_computeAccuracy. now rewrite !Z.mul_1_r. }
  unfold accuracy, bind, gets, get, lift, modify, ret. rewrite Hnone, Heq.
  destruct (spec_computeAccuracy _ _ _ _); reflexivity.
Qed.

Lemma accuracy_formula_witness :
  _accuracy (set_nmiss 2 (set_n100 3 (set_n300 3 fresh))) = None
  /\ accuracy (set_nmiss 2 (set_n100 3 (set_n300 3 fresh)))
     = (Return (Some 50%float),
        set__accuracy (Some 50%float) (set_nmiss 2 (set_n100 3 (set_n300 3 fresh)))).
Proof.
  split; [ reflexivity | ].
  destruct accuracy_formula as [H _].
  destruct (H (set_nmiss 2 (set_n100 3 (set_n300 3 fresh))) eq_refl) as [_ ->].
  vm_compute. reflexivity.
Defined.

(** ** The frame loop of [read_lzma] *)

Lemma is_seed_action_token (version : Z) (action : list string) (b : bool) :
  is_seed_action version action = Return b -> b = is_seed_token version action.
Proof.
  unfold is_seed_action, is_seed_token.
  destruct (20130319 <=? version); cbn [andb].
  - destruct action as [| a0 more]; cbn [index nth_error obind]; congruence.
  - congruence.
Qed.

Lemma is_seed_token_action (version : Z) (action : list string) :
  action <> [] ->
  is_seed_action version action = Return (is_seed_token version action).
Proof.
  intros Hne. unfold is_seed_action, is_seed_token.
  destruct (20130319 <=? version); cbn [andb]; [ | reflexivity ].
  destruct action as [| a0 more]; [ congruence | reflexivity ].
Qed.

Ltac outcome_cases :=
  repeat match goal with
         | H : context [obind (index ?l ?i) _] |- _ =>
           let E := fresh "Ei" in
           destruct (index l i) eqn:E; cbn [obind] in H; try discriminate H
         | H : context [obind (py_int ?s) _] |- _ =>
           let E := fresh "Ev" in
           destruct (py_int s) eqn:E; cbn [obind] in H; try discriminate H
         | H : context [obind (py_float ?s) _] |- _ =>
           let E := fresh "Ev" in
           destruct (py_float s) eqn:E; cbn [obind] in H; try discriminate H
         end.

(** In the four known modes a constructor call that succeeds builds the
    frame of the specification. *)
Lemma build_frame_sound (mode : Z) (action : list string)
    (frame o : option ReplayFrame) :
  0 <= mode <= 3 ->
  build_frame mode action frame = Return o ->
  exists f, o = Some f /\ spec_frame mode action f.
Proof.
  intros Hmode H.
  assert (Hcases : mode = 0 \/ mode = 1 \/ mode = 2 \/ mode = 3) by lia.
  destruct Hcases as [-> | [-> | [-> | ->]]];
    unfold build_frame in H; cbn [Z.eqb] in H;
    destruct action as [| d [| f1 [| f2 [| f3 more]]]];
    cbn [index nth_error obind] in H; try discriminate H;
    outcome_cases; inversion H; subst;
    eexists; (split; [ reflexivity | ]); constructor; assumption.
Qed.

Lemma build_frame_complete (mode : Z) (action : list string)
    (frame : option ReplayFrame) (f : ReplayFrame) :
  spec_frame mode action f ->
  build_frame mode action frame = Return (Some f).
Proof.
  intros Hf. destruct Hf; unfold build_frame; cbn [Z.eqb index nth_error obind];
    repeat match goal with H : _ = Return _ |- _ => rewrite H; clear H end;
    reflexivity.
Qed.

Lemma read_lzma_loop_sound (actions : list (list string)) :
  forall (frame : option ReplayFrame) (self self' : ReplayFile) (l0 : list ReplayFrame),
    0 <= mode self <= 3 ->
    _frames self = Some l0 ->
    read_lzma_loop actions frame self = (Return tt, self') ->
    exists fs,
      _frames self' = Some (l0 ++ fs)
      /\ Forall2 (spec_frame (mode self))
                 (filter (fun a => negb (is_seed_token (osu_version self) a)) actions) fs
      /\ mode self' = mode self /\ osu_version self' = osu_version self.
Proof.
  induction actions as [| action rest IH]; intros frame self self' l0 Hmode Hfs H.
  - inversion H; subst. exists []. rewrite app_nil_r. repeat split; auto; constructor.
  - cbn [read_lzma_loop] in H. unfold bind, gets, lift in H.
    destruct (is_seed_action (osu_version self) action) as [is_seed | e |] eqn:Es;
      try discriminate H.
    apply is_seed_action_token in Es. cbn [filter]. rewrite <- Es.
    destruct is_seed; cbn [negb].
    + destruct (index action 3) as [a3 | e |]; try discriminate H.
      destruct (py_int a3) as [v | e |]; try discriminate H.
      unfold modify in H.
      apply (IH _ _ _ l0) in H; [ | exact Hmode | exact Hfs ].
      exact H.
    + destruct (build_frame (mode self) action frame) as [o | e |] eqn:Eb;
        try discriminate H.
      destruct (build_frame_sound _ _ _ _ Hmode Eb) as [f [-> Hf]].
      unfold append_frame, bind, gets, modify in H. rewrite Hfs in H.
      apply (IH _ _ _ (l0 ++ [f])) in H; [ | exact Hmode | reflexivity ].
      destruct H as [fs [Hfs' [Hall [Hm Hv]]]].
      exists (f :: fs). rewrite <- app_assoc in Hfs'.
      repeat split; try assumption; constructor; assumption.
Qed.

Lemma read_lzma_loop_complete (actions : list (list string)) :
  forall (frame : option ReplayFrame) (self : ReplayFile) (l0 fs : list ReplayFrame),
    _frames self = Some l0 ->
    Forall (fun a => a <> []) actions ->
    Forall (fun a => is_seed_token (osu_version self) a = true -> exists k, spec_seed a k)
           actions ->
    Forall2 (spec_frame (mode self))
            (filter (fun a => negb (is_seed_token (osu_version self) a)) actions) fs ->
    exists self',
      read_lzma_loop actions frame self = (Return tt, self')
      /\ _frames self' = Some (l0 ++ fs).
Proof.
  induction actions as [| action rest IH]; intros frame self l0 fs Hfs Hne Hseed Hall.
  - inversion Hall; subst. exists self. rewrite app_nil_r. split; [ reflexivity | exact Hfs ].
  - inversion Hne as [| ? ? Hne1 Hne2]; subst.
    inversion Hseed as [| ? ? Hseed1 Hseed2]; subst.
    cbn [read_lzma_loop]. unfold bind, gets, lift.
    rewrite (is_seed_token_action _ _ Hne1).
    cbn [filter] in Hall.
    destruct (is_seed_token (osu_version self) action) eqn:Es; cbn [negb] in Hall.
    + destruct (Hseed1 eq_refl) as [k [f3 [Hnth Hint]]].
      unfold index. rewrite Hnth, Hint. unfold modify.
      apply IH; auto.
    + inversion Hall as [| ? f ? fs' Hf Hrest]; subst.
      rewrite (build_frame_complete _ _ frame _ Hf).
      unfold append_frame, bind, gets, modify. rewrite Hfs.
      destruct (IH (Some f) (set__frames (Some (l0 ++ [f])) self) (l0 ++ [f]) fs')
        as [self' [Hrun Hfs']]; auto.
      exists self'. split; [ exact Hrun | ]. now rewrite Hfs', <- app_assoc.
Qed.


Lemma py_split_not_nil (sep : ascii) (s : string) : py_split sep s <> [].
Proof.
  induction s as [| c s IH]; cbn [py_split]; [ discriminate | ].
  destruct (Ascii.eqb c sep); [ discriminate | ].
  destruct (py_split sep s); [ congruence | discriminate ].
Qed.

Lemma split_frames_not_nil (data : string) :
  Forall (fun a => a <> []) (split_frames data).
Proof.
  unfold split_frames. apply Forall_forall. intros a Ha.
  apply in_map_iff in Ha. destruct Ha as [t [<- _]]. apply py_split_not_nil.
Qed.

(** A text that ends with the separator splits into the tokens of its
    body followed by one empty token. *)
Lemma py_split_terminated (sep : ascii) (body : string) :
  py_split sep (body ++ String sep "") = py_split sep body ++ [EmptyString].
Proof.
  induction body as [| c body IH]; cbn [py_split append].
  - now rewrite Ascii.eqb_refl.
  - destruct (Ascii.eqb c sep); [ now rewrite IH | ].
    rewrite IH. destruct (py_split sep body) as [| t ts] eqn:E.
    + now apply py_split_not_nil in E.
    + reflexivity.
Qed.

(** C5 (as amended): [read_lzma] splits the text on [","] and discards the
    last token of the split whatever it is -- the empty token when the
    text ends with [","] -- and splits every other token on ["|"].  In
    the modes 0 to 3 the loop returns exactly when every token that is not
    a seed token stands for a frame of the mode and every seed token
    carries an integer seed, and the frames stored are those frames, in
    the order of the tokens: Standard (int(delta), float(field1),
    float(field2), int(field3)), Taiko (int(delta), float(field1),
    int(field3)), Catch (int(delta), float(field1), field3 == "1"), Mania
    (int(delta), int(field1)).  The stream
    ["0|1.0|2.0|0,-1|0.0|0.0|0,"] gives the two Standard frames
    (0, 1.0, 2.0, 0) and (-1, 0.0, 0.0, 0). *)
Theorem read_lzma_frames :
  (forall (data : string) (self : ReplayFile),
      0 <= mode self <= 3 ->
      _frames self = Some [] ->
      let tokens := drop_last (py_split "," data) in
      let frame_tokens :=
        filter (fun a => negb (is_seed_token (osu_version self) a))
               (map (py_split "|") tokens) in
      (forall self',
          read_lzma_loop (split_frames data) None self = (Return tt, self') ->
          exists fs,
            _frames self' = Some fs
            /\ Forall2 (spec_frame (mode self)) frame_tokens fs)
      /\ (forall fs,
             Forall2 (spec_frame (mode self)) frame_tokens fs ->
             Forall (fun a => is_seed_token (osu_version self) a = true ->
                              exists k, spec_seed a k)
                    (map (py_split "|") tokens) ->
             exists self',
               read_lzma_loop (split_frames data) None self = (Return tt, self')
               /\ _frames self' = Some fs))
  /\ (forall body : string,
         drop_last (py_split "," (body ++ ",")) = py_split "," body)
  /\ read_lzma_loop (split_frames "0|1.0|2.0|0,-1|0.0|0.0|0,") None
                    (set__frames (Some []) fresh)
     = (Return tt,
        set__frames (Some [OsuReplayFrame 0 1 2 0; OsuReplayFrame (-1) 0 0 0]) fresh).
Proof.
  split; [ | split ].
  - intros data self Hmode Hfs tokens frame_tokens. split.
    + intros self' Hrun.
      destruct (read_lzma_loop_sound _ _ _ _ [] Hmode Hfs Hrun) as [fs [Hfs' [Hall _]]].
      exists fs. split; assumption.
    + intros fs Hall Hseed.
      destruct (read_lzma_loop_complete (split_frames data) None self [] fs Hfs
                  (split_frames_not_nil data) Hseed Hall) as [self' [Hrun Hfs']].
      exists self'. split; assumption.
  - intros body. unfold drop_last.
    rewrite (py_split_terminated "," body). apply removelast_last.
  - vm_compute. reflexivity.
Qed.

Lemma read_lzma_frames_witness :
  0 <= mode (set_mode 3 (set__frames (Some []) fresh)) <= 3
  /\ _frames (set_mode 3 (set__frames (Some []) fresh)) = Some []
  /\ exists fs,
      _frames (snd (read_lzma_loop (split_frames "16|5,") None
                      (set_mode 3 (set__frames (Some []) fresh)))) = Some fs
      /\ Forall2 (spec_frame 3) [["16"; "5"]%string] fs.
Proof.
  split; [ cbn; lia | split; [ reflexivity | ] ].
  destruct read_lzma_frames as [H _].
  destruct (H "16|5,"%string (set_mode 3 (set__frames (Some []) fresh))) as [Hsound _];
    [ cbn; lia | reflexivity | ].
  destruct (Hsound (snd (read_lzma_loop (split_frames "16|5,") None
                           (set_mode 3 (set__frames (Some []) fresh)))))
    as [fs [Hfs Hall]]; [ vm_compute; reflexivity | ].
  exists fs. split; [ exact Hfs | exact Hall ].
Defined.

(** C5 (as stated) fails: the text ["0|1.0|2.0|0"] has no trailing
    delimiter, its only token is not empty and stands for the Standard
    frame (0, 1.0, 2.0, 0), and the token is discarded: the loop stores no
    frame. *)
Lemma unterminated_text_counterexample :
  py_split "," "0|1.0|2.0|0" = ["0|1.0|2.0|0"%string]
  /\ spec_frame 0 (py_split "|" "0|1.0|2.0|0") (OsuReplayFrame 0 1 2 0)
  /\ read_lzma_loop (split_frames "0|1.0|2.0|0") None (set__frames (Some []) fresh)
     = (Return tt, set__frames (Some []) fresh).
Proof.
  split; [ reflexivity | split; [ | reflexivity ] ].
  cbn [py_split Ascii.eqb Bool.eqb]. constructor; vm_compute; reflexivity.
Qed.

(** ** The seed token *)



(** ** The trailer *)

(** What the trailer does about the score id when the target-practice bit
    is clear: eight bytes from version 20140721 on, four bytes from
    version 20121008 on, nothing before. *)
Lemma read_trailer_score_id (self : ReplayFile) (r : BinaryRotator) :
  __reader self = Some r ->
  Z.land (mods self) 8388608 = 0 ->
  read_trailer self
  = if 20140721 <=? osu_version self then
      (Return tt,
       set__score_id
         (Some (int_from_bytes (py_slice (buffer r) (offset r) (offset r + 8)) true))
         (set___reader (Some {| buffer := buffer r; offset := offset r + 8 |}) self))
    else if 20121008 <=? osu_version self then
      (Return tt,
       set__score_id
         (Some (int_from_bytes (py_slice (buffer r) (offset r) (offset r + 4)) true))
         (set___reader (Some {| buffer := buffer r; offset := offset r + 4 |}) self))
    else (Return tt, self).
Proof.
  intros Hr Hbit. unfold read_trailer, bind, gets.
  destruct (20140721 <=? osu_version self);
    [ | destruct (20121008 <=? osu_version self) ];
    unfold on_reader, read_i64, read_i32, read_int, read, bind, get, modify, ret;
    rewrite ?Hr; cbn [mods set__score_id set___reader buffer offset];
    rewrite Hbit; reflexivity.
Qed.

(** C7, at the input on which the code departs from it: with the
    target-practice bit set and eight bytes left behind the block,
    [read_f64] takes the eight bytes and [struct.unpack("<f", ...)]
    rejects them, so the trailer ends with [struct.error] and no hit count
    is stored. *)
Theorem read_trailer_target_practice_fails (b0 b1 b2 b3 b4 b5 b6 b7 : byte) (rest : bytes) :
  let r := {| buffer := b0 :: b1 :: b2 :: b3 :: b4 :: b5 :: b6 :: b7 :: rest; offset := 0 |} in
  let self := set_mods 8388608 (set___reader (Some r) fresh) in
  read_f64 r = (Raise StructError, {| buffer := buffer r; offset := 8 |})
  /\ fst (read_trailer self) = Raise StructError
  /\ _target_practice_hits (snd (read_trailer self)) = None.
Proof.
  intros r self.
  assert (Hs : py_slice (b0 :: b1 :: b2 :: b3 :: b4 :: b5 :: b6 :: b7 :: rest) 0 8
               = [b0; b1; b2; b3; b4; b5; b6; b7])
    by (rewrite (py_slice_forward _ 0 8) by lia; reflexivity).
  split.
  - unfold read_f64, read, bind, get, modify, ret, lift. subst r. simpl.
    rewrite Hs. reflexivity.
  - unfold read_trailer, bind, gets, on_reader, read_f64, read, bind, get,
      modify, ret, lift.
    subst self r. simpl. rewrite Hs. split; reflexivity.
Qed.

(** ** Lazy access to the frame section *)

(** The frame loop leaves the cursor alone. *)
Lemma read_lzma_loop_reader (actions : list (list string)) :
  forall (frame : option ReplayFrame) (self : ReplayFile),
    __reader (snd (read_lzma_loop actions frame self)) = __reader self
    /\ osu_version (snd (read_lzma_loop actions frame self)) = osu_version self
    /\ mods (snd (read_lzma_loop actions frame self)) = mods self.
Proof.
  induction actions as [| action rest IH]; intros frame self; cbn [read_lzma_loop].
  - repeat split.
  - unfold bind, gets, lift, modify, raise, append_frame.
    destruct (is_seed_action (osu_version self) action) as [[|] | e |];
      cbn [fst snd]; try (repeat split; fail).
    + destruct (index action 3) as [a3 | e |]; cbn [fst snd]; try (repeat split; fail).
      destruct (py_int a3) as [v | e |]; cbn [fst snd]; try (repeat split; fail).
      exact (IH frame (set__seed (Some v) self)).
    + destruct (build_frame (mode self) action frame) as [[f |] | e |];
        cbn [fst snd]; try (repeat split; fail).
      unfold bind, gets, modify, raise.
      destruct (_frames self) as [l |]; cbn [fst snd]; try (repeat split; fail).
      exact (IH (Some f) (set__frames (Some (l ++ [f])) self)).
Qed.

(** C8, at the input on which the code departs from it: the frames are
    decoded and cached, the stream has no score id (version 0) and the
    cursor stands at the end of the buffer.  [frames] answers from the
    cache and leaves the cursor alone; [score_id] and [seed], whose
    attributes are still [None], run [read_lzma] again and move the cursor
    four bytes on. *)
Theorem score_id_reads_cursor_again (fs : list ReplayFrame) (buf : bytes) :
  let at_end := {| buffer := buf; offset := Z.of_nat (List.length buf) |} in
  let self := set__frames (Some fs) (set___reader (Some at_end) fresh) in
  frames self = (Return (Some fs), self)
  /\ __reader (snd (score_id self))
     = Some {| buffer := buf; offset := Z.of_nat (List.length buf) + 4 |}
  /\ __reader (snd (seed self))
     = Some {| buffer := buf; offset := Z.of_nat (List.length buf) + 4 |}.
Proof.
  intros at_end self.
  assert (Hrun : __reader (snd (read_lzma self))
                 = Some {| buffer := buf; offset := Z.of_nat (List.length buf) + 4 |}).
  { unfold read_lzma, bind, on_reader, read_i32, read_int, read, bind, get,
      modify, ret, lift.
    subst self at_end. cbn [__reader set__frames set___reader fresh buffer offset].
    rewrite !py_slice_nil by lia. cbn [int_from_bytes le_unsigned andb Z.add].
    rewrite Z.add_0_r.
    destruct (decompress []) as [data | e |]; cbn [fst snd]; try reflexivity.
    match goal with
    | |- context [read_lzma_loop ?a ?f ?s] =>
      destruct (read_lzma_loop_reader a f s) as [Hr [Hv Hm]];
        destruct (read_lzma_loop a f s) as [[[] | e |] s'] eqn:El
    end; cbn [fst snd] in *; simpl in Hr, Hv, Hm; try exact Hr.
    unfold read_trailer, bind, gets. rewrite Hv. cbn [Z.leb Z.compare].
    unfold ret at 1. rewrite Hm. exact Hr. }
  split; [ reflexivity | split ].
  - unfold score_id, bind, gets.
    change (_score_id self) with (@None Z). cbv beta iota.
    destruct (read_lzma self) as [[[] | e |] s'] eqn:E; cbn [fst snd] in *; exact Hrun.
  - unfold seed, bind, gets.
    change (_seed self) with (@None Z). cbv beta iota.
    destruct (read_lzma self) as [[[] | e |] s'] eqn:E; cbn [fst snd] in *; exact Hrun.
Qed.

(** ** The entry points *)

(** On the class object the loop of [parse_lzma] assigns none of the
    attributes. *)
Lemma parse_lzma_loop_class_state (actions : list (list string)) (self : ReplayFile) :
  snd (parse_lzma_loop TheClass actions self) = self.
Proof.
  induction actions as [| action rest IH]; cbn [parse_lzma_loop]; [ reflexivity | ].
  unfold bind, gets, lift, assign_seed, frames_append, ret, raise.
  destruct (is_seed_action (osu_version self) action) as [[|] | e |];
    cbn [fst snd]; try reflexivity.
  - destruct (index action 3) as [a3 | e |]; cbn [fst snd]; try reflexivity.
    destruct (py_int a3) as [v | e |]; cbn [fst snd]; try reflexivity.
    exact IH.
  - match goal with
    | |- context [match ?o with Return _ => _ | Raise _ => _ | OutOfFuel => _ end] =>
      destruct o as [f | e |]
    end; reflexivity.
Qed.

(** On the class object the first frame token ends [parse_lzma]. *)
Lemma parse_lzma_loop_class_frame (first : list string) (rest : list (list string))
    (self : ReplayFile) (f : ReplayFrame) :
  osu_version self < 20130319 ->
  spec_frame 0 first f ->
  fst (parse_lzma_loop TheClass (first :: rest) self) = Raise AttributeError.
Proof.
  intros Hv Hf. cbn [parse_lzma_loop].
  unfold bind, gets, lift, is_seed_action.
  apply Z.leb_gt in Hv. rewrite Hv.
  inversion Hf; subst. cbn [index nth_error obind].
  repeat match goal with H : _ = Return _ |- _ => rewrite H; clear H end.
  reflexivity.
Qed.

(** C9, where the code departs from it: [from_bytes] with
    [pure_lzma=True] never stores a frame -- whatever the buffer holds,
    the attributes it leaves are those of [__init__] plus the reader --
    and it ends with [AttributeError] as soon as the decompressed text
    starts with a Standard frame token; [from_file] with [pure_lzma=True]
    ends with [TypeError] before it decompresses anything. *)
Theorem from_bytes_pure_lzma_stores_nothing :
  (forall (bytedata : bytes) (st : ReplayFile),
      snd (from_bytes bytedata true st)
      = set___reader (Some {| buffer := bytedata; offset := 0 |}) fresh)
  /\ (forall (bytedata : bytes) (st : ReplayFile) (data : string)
             (first : list string) (rest : list (list string)) (f : ReplayFrame),
         decompress bytedata = Return data ->
         split_frames data = first :: rest ->
         spec_frame 0 first f ->
         fst (from_bytes bytedata true st) = Raise AttributeError)
  /\ (forall contents : bytes, fst (from_file contents true) = Raise TypeError).
Proof.
  split; [ | split ].
  - intros bytedata st.
    unfold from_bytes, __init__, parse_data, parse_lzma, bind, modify, on_reader, gets.
    cbn [__reader set___reader fresh buffer].
    destruct (lift (decompress bytedata) _) as [[data | e |] s'] eqn:Ed;
      unfold lift in Ed; inversion Ed; subst; cbn [fst snd]; try reflexivity.
    match goal with
    | |- context [parse_lzma_loop TheClass ?a ?s] =>
      pose proof (parse_lzma_loop_class_state a s) as Hs;
        destruct (parse_lzma_loop TheClass a s) as [[[] | e |] s'']
    end; cbn [fst snd] in *; subst; reflexivity.
  - intros bytedata st data first rest f Hd Hsplit Hf.
    unfold from_bytes, __init__, parse_data, parse_lzma, bind, modify, on_reader, gets.
    cbn [__reader set___reader fresh buffer].
    unfold lift. rewrite Hd, Hsplit.
    match goal with
    | |- context [parse_lzma_loop TheClass ?a ?s] =>
      pose proof (parse_lzma_loop_class_frame first rest s f) as Hfail;
        destruct (parse_lzma_loop TheClass a s) as [[[] | e |] s'']
    end; cbn [fst snd] in *;
      try (specialize (Hfail ltac:(cbn; lia) Hf); congruence).
  - intros contents. reflexivity.
Qed.





(** ** The header *)

Lemma triple_bind {S A B} (P : S -> Prop) (m : M S A) (Q : A -> S -> Prop)
    (k : A -> M S B) (R : B -> S -> Prop) (E : exn -> Prop) :
  triple P m Q E ->
  (forall a, triple (Q a) (k a) R E) ->
  triple P (bind m k) R E.
Proof.
  intros Hm Hk s Hs. unfold bind. specialize (Hm s Hs).
  destruct (m s) as [[a | e |] s']; try assumption.
  exact (Hk a s' Hm).
Qed.

Lemma triple_weaken {S A} (P : S -> Prop) (m : M S A) (Q Q' : A -> S -> Prop)
    (E E' : exn -> Prop) :
  triple P m Q E ->
  (forall a s, Q a s -> Q' a s) -> (forall e, E e -> E' e) ->
  triple P m Q' E'.
Proof.
  intros Hm HQ HE s Hs. specialize (Hm s Hs).
  destruct (m s) as [[a | e |] s']; auto.
Qed.

Lemma read_forward (n : Z) :
  0 <= n ->
  triple forward (read n) (fun _ r => forward r) (fun _ => False).
Proof.
  intros Hn r Hr. unfold forward in *.
  unfold read, bind, get, modify, ret. cbn [offset]. lia.
Qed.

Lemma read_int_forward (size : Z) (signed : bool) :
  0 <= size ->
  triple forward (read_int size signed) (fun _ r => forward r) (fun _ => False).
Proof.
  intros Hn. unfold read_int.
  eapply triple_bind; [ apply read_forward; exact Hn | ].
  intros data r Hr. exact Hr.
Qed.

(** The loop of [read_uleb128] ends within the fuel the model gives it:
    every read moves one byte on, and a read past the end yields 0. *)
Lemma read_uleb128_loop_total (fuel : nat) :
  forall (val shift : Z) (r : BinaryRotator),
    forward r -> 0 <= val -> 0 <= shift ->
    Z.max 0 (Z.of_nat (List.length (buffer r)) - offset r) < Z.of_nat fuel ->
    exists v r',
      read_uleb128_loop fuel val shift r = (Return v, r')
      /\ 0 <= v /\ forward r'.
Proof.
  induction fuel as [| fuel IH]; intros val shift r Hr Hval Hshift Hfuel; [ lia | ].
  unfold forward in Hr.
  cbn [read_uleb128_loop].
  unfold bind at 1, read_u8, read_int, read, bind, get, modify, ret.
  cbn [buffer offset].
  set (b := int_from_bytes (py_slice (buffer r) (offset r) (offset r + 1)) false).
  assert (Hnew : 0 <= Z.lor val (Z.shiftl (Z.land b 127) shift)).
  { apply Z.lor_nonneg. split; [ exact Hval | ].
    apply Z.shiftl_nonneg. apply Z.land_nonneg. right. lia. }
  destruct (Z.land b 128 =? 0) eqn:Estop.
  - eexists. eexists. split; [ reflexivity | ].
    split; [ exact Hnew | unfold forward; cbn [offset]; lia ].
  - destruct (Z_lt_le_dec (offset r) (Z.of_nat (List.length (buffer r)))) as [Hin | Hout].
    + apply IH; [ unfold forward; cbn [offset]; lia | exact Hnew | lia | ].
      cbn [buffer offset]. lia.
    + exfalso. subst b. rewrite py_slice_nil in Estop by lia.
      discriminate Estop.
Qed.

Lemma read_uleb128_forward :
  triple forward read_uleb128 (fun v r => uleb_value v /\ forward r) (fun _ => False).
Proof.
  intros r Hr. unfold read_uleb128.
  unfold bind at 1. pose proof (read_int_forward 1 false ltac:(lia) r Hr) as H8.
  fold read_u8 in H8.
  destruct (read_u8 r) as [[marker | e |] r1] eqn:E8; try contradiction.
  assert (Hbuf : buffer r1 = buffer r /\ offset r1 = offset r + 1).
  { unfold read_u8, read_int, read, bind, get, modify, ret in E8.
    inversion E8; subst. split; reflexivity. }
  destruct (negb (marker =? 11)).
  - unfold ret. split; [ left; reflexivity | exact H8 ].
  - unfold bind, get.
    destruct (read_uleb128_loop_total (S (List.length (buffer r1))) 0 0 r1)
      as [v [r2 [Hrun [Hv Hr2]]]]; [ exact H8 | lia | lia | | ].
    + unfold forward in H8. lia.
    + rewrite Hrun. unfold ret. split; [ right; exists v; auto | exact Hr2 ].
Qed.

Lemma read_string_forward :
  triple forward read_string (fun _ r => forward r)
         (fun e => e = TypeError \/ e = UnicodeDecodeError).
Proof.
  unfold read_string.
  eapply triple_bind.
  - eapply triple_weaken; [ apply read_uleb128_forward | | ].
    + intros a s H. exact H.
    + intros e [].
  - intros v r [Hv Hr]. cbv beta in *.
    destruct Hv as [-> | [n [-> Hn]]].
    + unfold raise. left. reflexivity.
    + pose proof (read_forward n Hn r Hr) as Hread. unfold bind.
      destruct (read n r) as [[data | e |] r'] eqn:E; try contradiction.
      unfold lift, decode_utf8. destruct (utf8_valid _ data); [ exact Hread | now right ].
Qed.

(** A cursor operation through [self.__reader]. *)
Lemma on_reader_triple {A} (m : M BinaryRotator A) (E : exn -> Prop) :
  triple forward m (fun _ r => forward r) E ->
  triple has_reader (on_reader m) (fun _ self => has_reader self) E.
Proof.
  intros Hm self [r [Hr Hf]]. unfold on_reader. rewrite Hr.
  specialize (Hm r Hf). destruct (m r) as [[a | e |] r']; try assumption.
  exists r'. split; [ reflexivity | exact Hm ].
Qed.

Lemma modify_has_reader (f : ReplayFile -> ReplayFile) (E : exn -> Prop) :
  (forall self, __reader (f self) = __reader self) ->
  triple has_reader (modify f) (fun _ self => has_reader self) E.
Proof.
  intros Hf self [r [Hr Hfw]]. unfold modify. exists r. rewrite Hf. auto.
Qed.

Lemma integer_field (size : Z) (signed : bool) :
  0 <= size ->
  triple has_reader (on_reader (read_int size signed))
         (fun _ self => has_reader self) header_error.
Proof.
  intros Hsize. apply on_reader_triple.
  eapply triple_weaken; [ apply read_int_forward; exact Hsize | auto | intros e [] ].
Qed.

Lemma string_field :
  triple has_reader (on_reader read_string)
         (fun _ self => has_reader self) header_error.
Proof.
  apply on_reader_triple.
  eapply triple_weaken; [ apply read_string_forward | auto | ].
  intros e [-> | ->]; unfold header_error; auto.
Qed.

Ltac header_field :=
  eapply triple_bind;
  [ first [ apply string_field
          | apply (integer_field 1 false); lia
          | apply (integer_field 2 false); lia
          | apply (integer_field 4 true); lia
          | apply (integer_field 8 true); lia ]
  | intros ?v; cbv beta ].

Ltac header_store :=
  eapply triple_bind;
  [ apply modify_has_reader; intros ?; reflexivity
  | intros ?u; cbv beta ].

(** On an instance the header either parses or ends with one of the
    three header errors, whatever the length of the buffer. *)
Lemma parse_header_triple :
  triple has_reader (parse_data AnInstance false)
         (fun o _ => o = AnInstance) header_error.
Proof.
  unfold parse_data.
  do 16 (header_field; header_store).
  header_field.
  eapply triple_bind with (Q := fun _ _ => True).
  - eapply triple_bind with (Q := fun _ _ => True).
    + intros self _. unfold lift, parse_timestamp.
      destruct (_ && _); [ exact I | unfold header_error; tauto ].
    + intros d self _. exact I.
  - intros _ self _. reflexivity.
Qed.

(** C2 (as amended): [parse_data] checks no length.  On an instance and a
    buffer of any length it returns the record or ends with [TypeError]
    (the byte at a string's marker position is not 0x0b, or lies past the
    end), [UnicodeDecodeError] or [OverflowError]; a buffer of at most
    five bytes, which ends before the first marker, ends with
    [TypeError]. *)
Theorem parse_data_checks_no_length :
  (forall contents : bytes,
      match fst (from_file contents false) with
      | Return o => o = AnInstance
      | Raise e => header_error e
      | OutOfFuel => False
      end)
  /\ (forall contents : bytes,
         (List.length contents <= 5)%nat ->
         fst (from_file contents false) = Raise TypeError).
Proof.
  split.
  - intros contents. unfold from_file, bind at 1, modify at 1.
    pose proof (parse_header_triple
                  (set___reader (Some {| buffer := contents; offset := 0 |}) fresh)) as H.
    destruct (parse_data AnInstance false _) as [[o | e |] s']; cbn [fst];
      apply H; eexists; (split; [ reflexivity | unfold forward; cbn; lia ]).
  - intros contents Hlen.
    unfold from_file, parse_data, bind, modify, on_reader, read_string, read_uleb128,
      read_u8, read_i32, read_int, read, bind, get, modify, ret.
    cbn [__reader set___reader set_mode set_osu_version fresh buffer offset Z.add].
    rewrite (py_slice_nil contents 5) by lia.
    reflexivity.
Qed.

End Decoder.

(** ** Concrete runs *)

Lemma parse_data_checks_no_length_witness :
  (List.length [x00; x00] <= 5)%nat
  /\ fst (from_file (fun _ => None) [x00; x00] false) = Raise TypeError.
Proof.
  split; [ cbn; lia | ].
  apply (proj2 (parse_data_checks_no_length (fun _ => None))). cbn; lia.
Defined.

(** C2 (as stated) fails: this buffer of 35 bytes ends right behind the
    marker of the life-graph string -- the length of that string and the
    eight bytes of the timestamp are missing, and the shortest full header
    has 44 bytes -- and [parse_data] returns the record, with an empty
    life graph and the timestamp of tick 0. *)
Lemma truncated_header_counterexample :
  let contents :=
    [x00; x00; x00; x00; x00; x0b; x00; x0b; x00; x0b; x00]
      ++ repeat x00 23 ++ [x0b] in
  (List.length contents = 35)%nat
  /\ fst (from_file (fun _ => None) contents false) = Return AnInstance
  /\ life_graph (snd (from_file (fun _ => None) contents false)) = EmptyString
  /\ timestamp (snd (from_file (fun _ => None) contents false))
     = TsDatetime (Datetime 0).
Proof. vm_compute. repeat split. Qed.

Lemma from_bytes_pure_lzma_stores_nothing_witness :
  let lzma := fun _ : bytes => Some (list_byte_of_string "0|1.0|2.0|0,") in
  decompress lzma [x5d] = Return "0|1.0|2.0|0,"%string
  /\ split_frames "0|1.0|2.0|0," = [["0"; "1.0"; "2.0"; "0"]%string]
  /\ spec_frame 0 ["0"; "1.0"; "2.0"; "0"]%string (OsuReplayFrame 0 1 2 0)
  /\ fst (from_bytes lzma [x5d] true fresh) = Raise AttributeError.
Proof.
  intros lzma.
  assert (Hd : decompress lzma [x5d] = Return "0|1.0|2.0|0,"%string) by reflexivity.
  assert (Hs : split_frames "0|1.0|2.0|0," = [["0"; "1.0"; "2.0"; "0"]%string])
    by reflexivity.
  assert (Hf : spec_frame 0 ["0"; "1.0"; "2.0"; "0"]%string (OsuReplayFrame 0 1 2 0))
    by (constructor; vm_compute; reflexivity).
  split; [ exact Hd | split; [ exact Hs | split; [ exact Hf | ] ] ].
  destruct (from_bytes_pure_lzma_stores_nothing lzma) as [_ [H _]].
  exact (H [x5d] fresh _ _ _ _ Hd Hs Hf).
Defined.
